(** * Ubuntu Data Explorer ([data_visualization.py]): model and properties

    The script is a straight sequence of library calls
    (load, clean, describe, plot).  It is embedded here as a state-and-error
    monad over the part of the machine the script can touch:

    - the terminal: lines waiting on standard input, and the log of
      everything printed, prompted and displayed;
    - the file system, as far as [os.path.exists] and [pd.read_csv] see it;
    - the sample table shipped with scikit-learn ([load_iris]);
    - pyplot's list of open figures.

    Python exceptions are values of [result]; [try]/[except Exception] is
    [try_except].  Library calls whose result is only handed to [print]
    ([describe], [groupby(...).mean]) are kept as symbolic reports that
    record their arguments; the calls the control flow depends on
    ([select_dtypes], [dropna], [empty], column assignment and removal,
    indexing) are computed. *)

From Stdlib Require Import QArith.
From stdpp Require Import gmap strings list fin_maps.

Open Scope string_scope.
Open Scope list_scope.
Open Scope Z_scope.

(** ** Python values *)

(** An exception instance: its class name and [str(e)]. Only subclasses of
    [Exception] are modelled. *)
Record exn := Exn { exc_class : string; exc_msg : string }.

Inductive result (A : Type) : Type :=
| Ok (a : A)
| Raise (e : exn).
Arguments Ok {A} a.
Arguments Raise {A} e.

(** ** Data frames *)

Inductive dtype := int64 | float64 | bool_ | object_ | category | datetime64.

Inductive value :=
| VNum (q : Q)
| VStr (s : string)
| VBool (b : bool).

(** A cell is [None] when the entry is missing (NaN, None, NaT). *)
Abbreviation cell := (option value) (only parsing).

(** Row-major frame: column labels with their dtypes, and the rows, each
    paired with its index label. *)
Record DataFrame := Frame {
  columns : list (string * dtype);
  rows : list (Z * list cell)
}.

Definition labels (df : DataFrame) : list string := (columns df).*1.

(** [df.index] *)
Definition index (df : DataFrame) : list Z := (rows df).*1.

(** [df.empty]: some axis has length 0. *)
Definition empty (df : DataFrame) : bool :=
  match columns df, rows df with
  | [], _ | _, [] => true
  | _, _ => false
  end.

(** [df.head()]: the first five rows. *)
Definition head (df : DataFrame) : DataFrame :=
  Frame (columns df) (take 5 (rows df)).

Definition is_number (d : dtype) : bool :=
  match d with int64 | float64 => true | _ => false end.

Definition is_categorical (d : dtype) : bool :=
  match d with object_ | category => true | _ => false end.

(** [df.select_dtypes(include=...).columns] *)
Definition select_dtypes (incl : dtype -> bool) (df : DataFrame) : list string :=
  (filter (fun c => incl c.2 = true) (columns df)).*1.

Definition has_null (r : list cell) : bool := existsb (fun c => negb (bool_decide (is_Some c))) r.

(** [df.dropna()]: axis 0, how="any"; labels, dtypes and the index labels of
    the surviving rows are kept. *)
Fixpoint dropna_rows (rs : list (Z * list cell)) : list (Z * list cell) :=
  match rs with
  | [] => []
  | r :: rs' => if has_null r.2 then dropna_rows rs' else r :: dropna_rows rs'
  end.

Definition dropna (df : DataFrame) : DataFrame :=
  Frame (columns df) (dropna_rows (rows df)).

(** Position of the first column carrying a label. *)
Fixpoint position (c : string) (ls : list string) : option nat :=
  match ls with
  | [] => None
  | l :: ls' => if String.eqb l c then Some 0%nat else S <$> position c ls'
  end.

(** The entries of one row at a position (missing when the row is short). *)
Definition at_pos (i : nat) (r : list cell) : cell := default None (r !! i).

(** [df[c]] for a label: the column as a list, [KeyError] when absent. *)
Definition getitem (df : DataFrame) (c : string) : result (list cell) :=
  match position c (labels df) with
  | Some i => Ok ((fun r => at_pos i r.2) <$> rows df)
  | None => Raise (Exn "KeyError" c)
  end.

(** [df.isnull().sum()]: missing entries per column. *)
Definition null_counts (df : DataFrame) : list (string * nat) :=
  imap (fun i c => (c, length (filter (fun r => at_pos i r.2 = None) (rows df))))
       (labels df).

(** [df[c] = vals]: replaces the entries of an existing column in place
    (the column takes the new dtype), or appends a new last column;
    [ValueError] when the lengths differ. *)
Definition set_row (i : nat) (v : cell) (r : Z * list cell) : Z * list cell :=
  (r.1, if decide (i < length r.2)%nat then <[i:=v]> r.2 else r.2 ++ [v]).

Definition setitem (df : DataFrame) (c : string) (d : dtype) (vals : list cell)
  : result DataFrame :=
  if negb (length vals =? length (rows df))%nat then
    Raise (Exn "ValueError" "Length of values does not match length of index")
  else
    match position c (labels df) with
    | Some i =>
        Ok (Frame (<[i:=(c, d)]> (columns df))
                  (zip_with (set_row i) vals (rows df)))
    | None =>
        Ok (Frame (columns df ++ [(c, d)])
                  (zip_with (fun v r => (r.1, r.2 ++ [v])) vals (rows df)))
    end.

(** Keep the entries of a row whose column label is not [c]. *)
Fixpoint drop_entries (c : string) (ls : list string) (r : list cell) : list cell :=
  match ls, r with
  | l :: ls', x :: r' =>
      if String.eqb l c then drop_entries c ls' r' else x :: drop_entries c ls' r'
  | _, _ => []
  end.

(** [df.drop(columns=c)]: removes every column labelled [c]; [KeyError] when
    there is none. *)
Definition drop_column (df : DataFrame) (c : string) : result DataFrame :=
  match position c (labels df) with
  | None => Raise (Exn "KeyError" c)
  | Some _ =>
      Ok (Frame (filter (fun p => p.1 ≠ c) (columns df))
                ((fun r => (r.1, drop_entries c (labels df) r.2)) <$> rows df))
  end.

(** [names[idx]] with an integer array as index (NumPy): every entry must be
    an integer in [-n, n), negative ones count from the end. *)
Definition np_index (names : list string) (c : cell) : option string :=
  match c with
  | Some (VNum q) =>
      if negb (Pos.eqb (Qden q) 1) then None
      else
        let n := Z.of_nat (length names) in
        let i := Qnum q in
        if (0 <=? i) && (i <? n) then names !! Z.to_nat i
        else if (- n <=? i) && (i <? 0) then names !! Z.to_nat (n + i)
        else None
  | _ => None
  end.

Definition np_take (names : list string) (idx : list cell) : result (list cell) :=
  match mapM (np_index names) idx with
  | Some l => Ok ((fun s => Some (VStr s)) <$> l)
  | None => Raise (Exn "IndexError" "index out of bounds or not an integer")
  end.

(** ** The Iris table of scikit-learn *)

Inductive iris_class := setosa | versicolor | virginica.

Record iris_sample := Sample {
  sepal_length : Q;
  sepal_width : Q;
  petal_length : Q;
  petal_width : Q;
  target : iris_class
}.

Definition class_code (k : iris_class) : Z :=
  match k with setosa => 0 | versicolor => 1 | virginica => 2 end.

Definition class_name (k : iris_class) : string :=
  match k with
  | setosa => "setosa" | versicolor => "versicolor" | virginica => "virginica"
  end.

(** What [load_iris(as_frame=True)] returns, as far as the script reads it. *)
Record Bunch := { frame : DataFrame; target_names : list string }.

Definition feature_names : list string :=
  ["sepal length (cm)"; "sepal width (cm)"; "petal length (cm)"; "petal width (cm)"].

Definition features (x : iris_sample) : list Q :=
  [sepal_length x; sepal_width x; petal_length x; petal_width x].

Definition iris_row (i : nat) (x : iris_sample) : Z * list cell :=
  (Z.of_nat i,
   ((fun q => Some (VNum q)) <$> features x) ++ [Some (VNum (inject_Z (class_code (target x))))]).

Definition iris_bunch (samples : list iris_sample) : Bunch :=
  {| frame := Frame (((fun l => (l, float64)) <$> feature_names) ++ [("target", int64)])
                    (imap iris_row samples);
     target_names := class_name <$> [setosa; versicolor; virginica] |}.

(** ** The terminal, pyplot and the machine state *)

(** What is handed to [print]. [PDescribe df] is the table [df.describe()],
    [PGroupMean df c b] the table [df.groupby(c).mean(numeric_only=b)]. *)
Inductive printable :=
| PStr (s : string)
| PFrame (df : DataFrame)
| PDtypes (cols : list (string * dtype))
| PCounts (counts : list (string * nat))
| PDescribe (df : DataFrame)
| PGroupMean (df : DataFrame) (by_col : string) (numeric_only : bool).

Inductive artist :=
| LinePlot (x : list Z) (y : list cell) (label color : string)
| BarPlot (x y : string) (data : DataFrame) (estimator palette : string)
| Histogram (x : list cell) (bins : Z) (color edgecolor : string)
| ScatterPlot (x y : string) (hue : option string) (data : DataFrame) (palette : string).

Record figure := Fig {
  figsize : option (Z * Z);
  artists : list artist;
  title : option string;
  xlabel : option string;
  ylabel : option string;
  legend : option (option string);  (* drawn or not, and its title *)
  tight : bool
}.

Definition blank (size : option (Z * Z)) : figure :=
  Fig size [] None None None None false.

(** Read-only calls into the environment. *)
Inductive query :=
| PathExists (path : string)
| ReadCsv (path : string)
| LoadIris.

Inductive event :=
| Printed (x : printable)
| Prompted (prompt : string)
| Queried (q : query)
| Shown (f : figure).

Record Sys := MkSys {
  stdin : list string;                   (* lines not yet read *)
  files : gmap string (exn + DataFrame); (* existing paths, and what reading them as CSV gives *)
  iris_table : list iris_sample;         (* the rows behind [load_iris] *)
  log : list event;                      (* oldest first *)
  figures : list figure                  (* open figures, current one first *)
}.

Definition M (A : Type) : Type := Sys -> result A * Sys.

#[global] Instance M_ret : MRet M := fun A a s => (Ok a, s).

#[global] Instance M_bind : MBind M := fun A B f m s =>
  match m s with
  | (Ok a, s') => f a s'
  | (Raise e, s') => (Raise e, s')
  end.

Definition raise {A} (e : exn) : M A := fun s => (Raise e, s).

Definition lift {A} (r : result A) : M A := fun s => (r, s).

(** [try: body except Exception as e: handler(e)] *)
Definition try_except {A} (body : M A) (handler : exn -> M A) : M A := fun s =>
  match body s with
  | (Ok a, s') => (Ok a, s')
  | (Raise e, s') => handler e s'
  end.

Definition emit (e : event) : M unit := fun s =>
  (Ok tt, MkSys (stdin s) (files s) (iris_table s) (log s ++ [e]) (figures s)).

Definition set_figures (fs : list figure) : M unit := fun s =>
  (Ok tt, MkSys (stdin s) (files s) (iris_table s) (log s) fs).

Definition print (x : printable) : M unit := emit (Printed x).

(** [input(prompt)]: writes the prompt, then takes one line; [EOFError] at
    end of input. *)
Definition input (prompt : string) : M string := fun s =>
  let s1 := MkSys (stdin s) (files s) (iris_table s) (log s ++ [Prompted prompt]) (figures s) in
  match stdin s with
  | line :: rest =>
      (Ok line, MkSys rest (files s1) (iris_table s1) (log s1) (figures s1))
  | [] => (Raise (Exn "EOFError" "EOF when reading a line"), s1)
  end.

Definition gets {A} (f : Sys -> A) : M A := fun s => (Ok (f s), s).

(** [os.path.exists(path)] *)
Definition path_exists (path : string) : M bool :=
  emit (Queried (PathExists path));;
  gets (fun s => bool_decide (is_Some (files s !! path))).

(** [pd.read_csv(path)] *)
Definition read_csv (path : string) : M DataFrame :=
  emit (Queried (ReadCsv path));;
  r ← gets (fun s => files s !! path);
  match r with
  | Some (inr df) => mret df
  | Some (inl e) => raise e
  | None => raise (Exn "FileNotFoundError" path)
  end.

(** [load_iris(as_frame=True)]: a fresh bunch on every call. *)
Definition load_iris : M Bunch :=
  emit (Queried LoadIris);;
  gets (fun s => iris_bunch (iris_table s)).

(** *** pyplot: commands act on the current figure, [show] displays and
    closes every open one. *)

Definition on_current (f : figure -> figure) : M unit := fun s =>
  set_figures (match figures s with
               | [] => [f (blank None)]
               | g :: gs => f g :: gs
               end) s.

Definition plt_figure (w h : Z) : M unit := fun s =>
  set_figures (blank (Some (w, h)) :: figures s) s.

Definition draw (a : artist) : M unit :=
  on_current (fun g => Fig (figsize g) (artists g ++ [a]) (title g) (xlabel g) (ylabel g) (legend g) (tight g)).
Definition plt_title (t : string) : M unit :=
  on_current (fun g => Fig (figsize g) (artists g) (Some t) (xlabel g) (ylabel g) (legend g) (tight g)).
Definition plt_xlabel (t : string) : M unit :=
  on_current (fun g => Fig (figsize g) (artists g) (title g) (Some t) (ylabel g) (legend g) (tight g)).
Definition plt_ylabel (t : string) : M unit :=
  on_current (fun g => Fig (figsize g) (artists g) (title g) (xlabel g) (Some t) (legend g) (tight g)).
Definition plt_legend (t : option string) : M unit :=
  on_current (fun g => Fig (figsize g) (artists g) (title g) (xlabel g) (ylabel g) (Some t) (tight g)).
Definition plt_tight_layout : M unit :=
  on_current (fun g => Fig (figsize g) (artists g) (title g) (xlabel g) (ylabel g) (legend g) true).

Definition plt_show : M unit := fun s =>
  (Ok tt, MkSys (stdin s) (files s) (iris_table s)
                (log s ++ (Shown <$> reverse (figures s))) []).

(** ** Strings and sequences *)

Definition nl : string := String (Ascii.ascii_of_nat 10) "".

(** [str.isspace] on one character. Strings are byte strings here, so only
    the ASCII white space is recognised. *)
Definition is_space (c : Ascii.ascii) : bool :=
  let n := Ascii.nat_of_ascii c in
  ((9 <=? n) && (n <=? 13) || (28 <=? n) && (n <=? 32))%nat.

Fixpoint lstrip (s : string) : string :=
  match s with
  | String c t => if is_space c then lstrip t else s
  | EmptyString => EmptyString
  end.

Fixpoint rstrip (s : string) : string :=
  match s with
  | EmptyString => EmptyString
  | String c t =>
      match rstrip t with
      | EmptyString => if is_space c then EmptyString else String c EmptyString
      | t' => String c t'
      end
  end.

(** [s.strip()] *)
Definition strip (s : string) : string := rstrip (lstrip s).

(** Truth value of a [str]. *)
Definition truthy (s : string) : bool := negb (String.eqb s "").

(** [cols[i]] on an [Index] of labels. *)
Definition getindex (cols : list string) (i : nat) : result string :=
  match cols !! i with
  | Some c => Ok c
  | None => Raise (Exn "IndexError" "index out of bounds")
  end.

(** ** The script *)

(** A Python object a function of the script can return. *)
Inductive pyobj :=
| PyNone
| PyFrame (df : DataFrame).

Definition load_iris_dataset : M DataFrame :=
  iris ← load_iris;
  let df := frame iris in
  t ← lift (getitem df "target");
  names ← lift (np_take (target_names iris) t);
  df ← lift (setitem df "species" object_ names);
  df ← lift (drop_column df "target");
  print (PStr "✓ Iris dataset successfully loaded.");;
  mret df.

Definition load_dataset : M pyobj :=
  print (PStr "Would you like to load your own CSV dataset?");;
  line ← input "Enter CSV file path or press Enter to use the Iris dataset: ";
  let choice := strip line in
  if truthy choice then
    try_except
      (found ← path_exists choice;
       if negb found then
         print (PStr ("✗ File not found: " +:+ choice +:+ ". Falling back to Iris dataset."));;
         df ← load_iris_dataset;
         mret (PyFrame df)
       else
         df ← read_csv choice;
         print (PStr ("✓ Dataset successfully loaded from " +:+ choice));;
         mret (PyFrame df))
      (fun e =>
         print (PStr ("✗ Error loading CSV: " +:+ exc_msg e +:+ ". Falling back to Iris dataset."));;
         df ← load_iris_dataset;
         mret (PyFrame df))
  else
    df ← load_iris_dataset;
    mret (PyFrame df).

Definition explore_data (df : DataFrame) : M DataFrame :=
  print (PStr (nl +:+ "--- Data Overview ---"));;
  print (PFrame (head df));;
  print (PStr (nl +:+ "--- Data Types ---"));;
  print (PDtypes (columns df));;
  print (PStr (nl +:+ "--- Missing Values ---"));;
  print (PCounts (null_counts df));;
  let df := dropna df in
  mret df.

Definition basic_analysis (df : DataFrame) : M unit :=
  print (PStr (nl +:+ "--- Summary Statistics ---"));;
  print (PDescribe df);;
  let cat_cols := select_dtypes is_categorical df in
  let num_cols := select_dtypes is_number df in
  if (0 <? length cat_cols)%nat && (0 <? length num_cols)%nat then
    group_col ← lift (getindex cat_cols 0);
    print (PStr (nl +:+ "--- Mean of numerical features grouped by " +:+ group_col +:+ " ---"));;
    print (PGroupMean df group_col true);;
    print (PStr (nl +:+ "Observation:"));;
    print (PStr ("→ Grouping by " +:+ group_col +:+ " shows distinct differences in numerical features."))
  else
    print (PStr (nl +:+ "(No categorical column found for grouping analysis.)")).

Definition visualize_data (df : DataFrame) : M unit :=
  let num_cols := select_dtypes is_number df in
  if (length num_cols <? 2)%nat then
    print (PStr (nl +:+ "✗ Not enough numerical columns to generate all plots."))
  else
    (* 1. line chart *)
    plt_figure 8 4;;
    c0 ← lift (getindex num_cols 0);
    y ← lift (getitem df c0);
    draw (LinePlot (index df) y c0 "green");;
    plt_title (c0 +:+ " Trend Across Samples");;
    plt_xlabel "Sample Index";;
    plt_ylabel c0;;
    plt_legend None;;
    plt_tight_layout;;
    plt_show;;
    (* 2. bar chart *)
    let cat_cols := select_dtypes is_categorical df in
    (if (0 <? length cat_cols)%nat then
       plt_figure 6 4;;
       k ← lift (getindex cat_cols 0);
       draw (BarPlot k c0 df "mean" "viridis");;
       plt_title ("Average " +:+ c0 +:+ " by " +:+ k);;
       plt_xlabel k;;
       plt_ylabel ("Avg " +:+ c0);;
       plt_tight_layout;;
       plt_show
     else mret tt);;
    (* 3. histogram *)
    plt_figure 6 4;;
    c1 ← lift (getindex num_cols 1);
    x ← lift (getitem df c1);
    draw (Histogram x 15 "skyblue" "black");;
    plt_title ("Distribution of " +:+ c1);;
    plt_xlabel c1;;
    plt_ylabel "Frequency";;
    plt_tight_layout;;
    plt_show;;
    (* 4. scatter plot *)
    plt_figure 6 4;;
    hue ← (if (0 <? length cat_cols)%nat
           then k ← lift (getindex cat_cols 0); mret (Some k)
           else mret None);
    draw (ScatterPlot c0 c1 hue df "deep");;
    plt_title (c0 +:+ " vs " +:+ c1);;
    plt_xlabel c0;;
    plt_ylabel c1;;
    lt ← (if (0 <? length cat_cols)%nat
          then lift (getindex cat_cols 0)
          else mret "Legend");
    plt_legend (Some lt);;
    plt_tight_layout;;
    plt_show.

Definition main : M unit :=
  print (PStr ("Welcome to Ubuntu Data Explorer" +:+ nl));;
  df ← load_dataset;
  match df with
  | PyNone => print (PStr "✗ No dataset available. Exiting.")
  | PyFrame d =>
      if empty d then print (PStr "✗ No dataset available. Exiting.")
      else
        d ← explore_data d;
        basic_analysis d;;
        visualize_data d;;
        print (PStr (nl +:+ "Analysis complete. Community enriched."))
  end.

(** ** Observing a run *)

(** The state after some more events were logged. *)
Definition logged (s : Sys) (es : list event) : Sys :=
  MkSys (stdin s) (files s) (iris_table s) (log s ++ es) (figures s).

(** The events a computation adds to the log when started in [s]. *)
Definition emitted {A} (m : M A) (s : Sys) : list event :=
  drop (length (log s)) (log (m s).2).

(** The figures displayed, in order. *)
Definition shown (es : list event) : list figure :=
  omap (fun e => match e with Shown f => Some f | _ => None end) es.

Definition is_prompt (e : event) : bool :=
  match e with Prompted _ => true | _ => false end.
Definition is_exists_query (e : event) : bool :=
  match e with Queried (PathExists _) => true | _ => false end.
Definition is_read_csv (e : event) : bool :=
  match e with Queried (ReadCsv _) => true | _ => false end.
Definition is_load_iris (e : event) : bool :=
  match e with Queried LoadIris => true | _ => false end.

(** How often events of one kind occur. *)
Fixpoint count (p : event -> bool) (es : list event) : nat :=
  match es with
  | [] => 0
  | e :: es' => (if p e then 1 else 0) + count p es'
  end%nat.

(** The frame [load_iris_dataset] is expected to build: the four feature
    columns and a last column [species] with the class names. *)
Definition iris_dataset (samples : list iris_sample) : DataFrame :=
  Frame (((fun l => (l, float64)) <$> feature_names) ++ [("species", object_)])
        (imap (fun i x => (Z.of_nat i,
                 ((fun q => Some (VNum q)) <$> features x)
                 ++ [Some (VStr (class_name (target x)))])) samples).

(** The messages of the script. *)
Definition msg_ask := "Would you like to load your own CSV dataset?".
Definition msg_prompt := "Enter CSV file path or press Enter to use the Iris dataset: ".
Definition msg_not_found (choice : string) :=
  "✗ File not found: " +:+ choice +:+ ". Falling back to Iris dataset.".
Definition msg_error (e : exn) :=
  "✗ Error loading CSV: " +:+ exc_msg e +:+ ". Falling back to Iris dataset.".
Definition msg_loaded (choice : string) := "✓ Dataset successfully loaded from " +:+ choice.
Definition msg_iris := "✓ Iris dataset successfully loaded.".
Definition msg_welcome := "Welcome to Ubuntu Data Explorer" +:+ nl.
Definition msg_exit := "✗ No dataset available. Exiting.".
Definition msg_complete := nl +:+ "Analysis complete. Community enriched.".
Definition msg_few_columns := nl +:+ "✗ Not enough numerical columns to generate all plots.".

Definition iris_events : list event :=
  [Queried LoadIris; Printed (PStr msg_iris)].

(** State after the question and the prompt, with one line consumed. *)
Definition asked (s : Sys) (rest : list string) : Sys :=
  MkSys rest (files s) (iris_table s)
        (log s ++ [Printed (PStr msg_ask); Prompted msg_prompt]) (figures s).

(** The four charts of [visualize_data], as they are displayed. *)
Definition line_chart (df : DataFrame) (c0 : string) (y : list cell) : figure :=
  Fig (Some (8, 4)) [LinePlot (index df) y c0 "green"]
      (Some (c0 +:+ " Trend Across Samples")) (Some "Sample Index") (Some c0)
      (Some None) true.

Definition bar_chart (df : DataFrame) (k c0 : string) : figure :=
  Fig (Some (6, 4)) [BarPlot k c0 df "mean" "viridis"]
      (Some ("Average " +:+ c0 +:+ " by " +:+ k)) (Some k) (Some ("Avg " +:+ c0))
      None true.

Definition histogram_chart (c1 : string) (x : list cell) : figure :=
  Fig (Some (6, 4)) [Histogram x 15 "skyblue" "black"]
      (Some ("Distribution of " +:+ c1)) (Some c1) (Some "Frequency")
      None true.

Definition scatter_chart (df : DataFrame) (c0 c1 : string) (hue : option string) : figure :=
  Fig (Some (6, 4)) [ScatterPlot c0 c1 hue df "deep"]
      (Some (c0 +:+ " vs " +:+ c1)) (Some c0) (Some c1)
      (Some (Some (default "Legend" hue))) true.


(** What [basic_analysis] prints. *)
Definition describe_events (df : DataFrame) : list event :=
  [Printed (PStr (nl +:+ "--- Summary Statistics ---")); Printed (PDescribe df)].

Definition grouping_events (df : DataFrame) (g : string) : list event :=
  [Printed (PStr (nl +:+ "--- Mean of numerical features grouped by " +:+ g +:+ " ---"));
   Printed (PGroupMean df g true);
   Printed (PStr (nl +:+ "Observation:"));
   Printed (PStr ("→ Grouping by " +:+ g +:+ " shows distinct differences in numerical features."))].

Definition no_grouping_events : list event :=
  [Printed (PStr (nl +:+ "(No categorical column found for grouping analysis.)"))].

(** A transition of the machine that leaves the file system and the Iris
    table alone, may consume input, and appends [es] to the log. *)
Definition step (s s' : Sys) (es : list event) : Prop :=
  files s' = files s
  /\ iris_table s' = iris_table s
  /\ stdin s' `suffix_of` stdin s
  /\ log s' = log s ++ es.

(** Events that neither prompt the user nor query the environment:
    printed output and displayed figures. *)
Definition is_output (e : event) : bool :=
  match e with
  | Printed _ | Shown _ => true
  | Prompted _ | Queried _ => false
  end.

(** ** Sample inputs *)

Definition demo_samples : list iris_sample :=
  [Sample (51 # 10) (35 # 10) (14 # 10) (2 # 10) setosa;
   Sample (7 # 1) (32 # 10) (47 # 10) (14 # 10) versicolor;
   Sample (63 # 10) (33 # 10) (6 # 1) (25 # 10) virginica].

(** Two numeric columns, no categorical one; the first row has a gap. *)
Definition demo_numeric : DataFrame :=
  Frame [("a", int64); ("b", float64)]
        [(0, [Some (VNum 1); None]);
         (1, [Some (VNum 2); Some (VNum 3)]);
         (2, [Some (VNum 5); Some (VNum 8)])].

(** Two numeric columns and a categorical one. *)
Definition demo_mixed : DataFrame :=
  Frame [("kind", object_); ("a", int64); ("b", float64)]
        [(0, [Some (VStr "x"); Some (VNum 1); Some (VNum 4)]);
         (1, [Some (VStr "y"); Some (VNum 2); Some (VNum 3)])].

Definition demo_files : gmap string (exn + DataFrame) :=
  {[ "data.csv" := inr demo_numeric;
     "mixed.csv" := inr demo_mixed;
     "bad.csv" := inl (Exn "ParserError" "Error tokenizing data") ]}.

(** A process that has just started, with the given lines typed by the user. *)
Definition demo_sys (typed : list string) : Sys :=
  MkSys typed demo_files demo_samples [] [].


(** A frame is rectangular when every row has one entry per column. *)
Definition rectangular (df : DataFrame) : Prop :=
  Forall (fun r => length r.2 = length (columns df)) (rows df).

(** A CSV in which every row has a gap, and a process about to read it. *)
Definition demo_gappy : DataFrame :=
  Frame [("a", int64); ("b", float64)]
        [(0, [Some (VNum 1); None]);
         (1, [None; Some (VNum 3)])].

Definition gappy_sys : Sys :=
  MkSys ["gaps.csv"] {[ "gaps.csv" := inr demo_gappy ]} demo_samples [] [].

(** What [explore_data] prints. *)
Definition explore_events (df : DataFrame) : list event :=
  [Printed (PStr (nl +:+ "--- Data Overview ---"));
   Printed (PFrame (head df));
   Printed (PStr (nl +:+ "--- Data Types ---"));
   Printed (PDtypes (columns df));
   Printed (PStr (nl +:+ "--- Missing Values ---"));
   Printed (PCounts (null_counts df))].

(** * Properties *)

(** ** Running monadic code *)

Lemma bind_ok {A B} (m : M A) (f : A -> M B) s a s' :
  m s = (Ok a, s') -> (m ≫= f) s = f a s'.
Proof. intros H. unfold mbind, M_bind. now rewrite H. Qed.

Lemma bind_raise {A B} (m : M A) (f : A -> M B) s e s' :
  m s = (Raise e, s') -> (m ≫= f) s = (Raise e, s').
Proof. intros H. unfold mbind, M_bind. now rewrite H. Qed.

Lemma emit_run e s : emit e s = (Ok tt, logged s [e]).
Proof. reflexivity. Qed.

Lemma print_run x s : print x s = (Ok tt, logged s [Printed x]).
Proof. reflexivity. Qed.

Lemma logged_logged s es es' : logged (logged s es) es' = logged s (es ++ es').
Proof. unfold logged. simpl. now rewrite app_assoc. Qed.

Lemma logged_nil s : logged s [] = s.
Proof. destruct s. unfold logged. simpl. now rewrite app_nil_r. Qed.

Lemma emitted_logged {A} (m : M A) s r es :
  m s = (r, logged s es) -> emitted m s = es.
Proof.
  intros H. unfold emitted. rewrite H. simpl.
  now rewrite drop_app_length.
Qed.

(** ** The Iris frame *)

Lemma iris_target_column samples :
  getitem (frame (iris_bunch samples)) "target"
  = Ok ((fun x => Some (VNum (inject_Z (class_code (target x))))) <$> samples).
Proof.
  unfold getitem. simpl. f_equal.
  rewrite fmap_imap. rewrite <- imap_const. now apply imap_ext.
Qed.

Lemma iris_species_names samples :
  np_take (target_names (iris_bunch samples))
          ((fun x => Some (VNum (inject_Z (class_code (target x))))) <$> samples)
  = Ok ((fun x => Some (VStr (class_name (target x)))) <$> samples).
Proof.
  unfold np_take.
  assert (H : mapM (np_index (target_names (iris_bunch samples)))
                ((fun x => Some (VNum (inject_Z (class_code (target x))))) <$> samples)
              = Some ((fun x => class_name (target x)) <$> samples)).
  { apply mapM_Some. induction samples as [|x l IH]; simpl; constructor; auto.
    now destruct (target x). }
  rewrite H. f_equal. now rewrite <- list_fmap_compose.
Qed.

Lemma zip_with_imap_append {X} (f : nat -> X -> Z * list cell) (g : X -> cell) l :
  zip_with (fun v r => (r.1, r.2 ++ [v])) (g <$> l) (imap f l)
  = imap (fun i x => ((f i x).1, (f i x).2 ++ [g x])) l.
Proof.
  revert f. induction l as [|x l IH]; intros f; [reflexivity|].
  simpl. f_equal. apply IH.
Qed.

Lemma iris_add_species samples :
  setitem (frame (iris_bunch samples)) "species" object_
          ((fun x => Some (VStr (class_name (target x)))) <$> samples)
  = Ok (Frame (columns (frame (iris_bunch samples)) ++ [("species", object_)])
              (imap (fun i x => ((iris_row i x).1,
                                 (iris_row i x).2 ++ [Some (VStr (class_name (target x)))]))
                    samples)).
Proof.
  unfold setitem.
  replace (length ((fun x => Some (VStr (class_name (target x)))) <$> samples)
           =? length (rows (frame (iris_bunch samples))))%nat with true.
  - simpl. f_equal. f_equal. apply zip_with_imap_append.
  - symmetry. apply Nat.eqb_eq. simpl. now rewrite length_fmap, length_imap.
Qed.

Lemma iris_drop_target samples :
  drop_column
    (Frame (columns (frame (iris_bunch samples)) ++ [("species", object_)])
           (imap (fun i x => ((iris_row i x).1,
                              (iris_row i x).2 ++ [Some (VStr (class_name (target x)))]))
                 samples))
    "target"
  = Ok (iris_dataset samples).
Proof.
  unfold drop_column, iris_dataset. simpl. f_equal. f_equal.
  rewrite fmap_imap. now apply imap_ext.
Qed.

Lemma load_iris_dataset_run s :
  load_iris_dataset s = (Ok (iris_dataset (iris_table s)), logged s iris_events).
Proof.
  unfold load_iris_dataset, load_iris.
  unfold mbind, M_bind, lift, gets. rewrite emit_run. cbv beta iota.
  rewrite iris_target_column. cbv beta iota.
  rewrite iris_species_names. cbv beta iota.
  rewrite iris_add_species. cbv beta iota.
  rewrite iris_drop_target. cbv beta iota.
  rewrite print_run, logged_logged. reflexivity.
Qed.

Lemma iris_dataset_labels samples :
  labels (iris_dataset samples) = feature_names ++ ["species"].
Proof. reflexivity. Qed.

Lemma iris_dataset_species samples :
  getitem (iris_dataset samples) "species"
  = Ok ((fun x => Some (VStr (class_name (target x)))) <$> samples).
Proof.
  unfold getitem. simpl. f_equal.
  rewrite fmap_imap. rewrite <- imap_const. now apply imap_ext.
Qed.

Lemma iris_dataset_feature samples f :
  f ∈ feature_names ->
  getitem (iris_dataset samples) f = getitem (frame (iris_bunch samples)) f.
Proof.
  unfold feature_names. rewrite !elem_of_cons, elem_of_nil.
  intros [->|[->|[->|[->|[]]]]]; unfold getitem; simpl; f_equal;
    rewrite !fmap_imap; now apply imap_ext.
Qed.

(** C9 — the frame returned by [load_iris_dataset] has no column [target];
    it has a column [species] holding, row by row, the target name selected
    by that row's numeric target; the four feature columns are those of the
    frame scikit-learn delivered. *)
Theorem load_iris_dataset_species s :
  exists df s',
    load_iris_dataset s = (Ok df, s')
    /\ ("target" ∉ labels df)
    /\ ("species" ∈ labels df)
    /\ (exists t, getitem (frame (iris_bunch (iris_table s))) "target" = Ok t
                  /\ getitem df "species" = np_take (target_names (iris_bunch (iris_table s))) t)
    /\ getitem df "species"
       = Ok ((fun x => Some (VStr (class_name (target x)))) <$> iris_table s)
    /\ (forall f, f ∈ feature_names ->
                  getitem df f = getitem (frame (iris_bunch (iris_table s))) f)
    /\ labels df = feature_names ++ ["species"].
Proof.
  exists (iris_dataset (iris_table s)), (logged s iris_events).
  split; [apply load_iris_dataset_run|].
  rewrite iris_dataset_labels.
  split; [unfold feature_names; simpl; rewrite !elem_of_cons, elem_of_nil; intuition discriminate|].
  split; [unfold feature_names; simpl; rewrite !elem_of_cons; tauto|].
  split.
  { eexists. split; [apply iris_target_column|].
    now rewrite iris_species_names, iris_dataset_species. }
  split; [apply iris_dataset_species|].
  split; [apply iris_dataset_feature | reflexivity].
Qed.

(** ** Dataset acquisition *)

Lemma truthy_true c : truthy c = true <-> c <> "".
Proof.
  unfold truthy. rewrite negb_true_iff.
  destruct (String.eqb_spec c ""); split; congruence.
Qed.

Lemma truthy_false c : truthy c = false <-> c = "".
Proof.
  unfold truthy. rewrite negb_false_iff. apply String.eqb_eq.
Qed.

Ltac start_load s H :=
  destruct s as [inp fs tbl lg figs]; simpl in H; subst inp;
  unfold load_dataset, mbind, M_bind; rewrite print_run; unfold input; simpl.

Ltac finish_load :=
  unfold logged, asked; simpl; rewrite <- ?app_assoc; reflexivity.

Lemma load_dataset_eof s :
  stdin s = [] ->
  load_dataset s
  = (Raise (Exn "EOFError" "EOF when reading a line"),
     logged s [Printed (PStr msg_ask); Prompted msg_prompt]).
Proof. intros H. start_load s H. finish_load. Qed.

Lemma load_dataset_default s line rest :
  stdin s = line :: rest -> strip line = "" ->
  load_dataset s
  = (Ok (PyFrame (iris_dataset (iris_table s))), logged (asked s rest) iris_events).
Proof.
  intros H Hc. start_load s H. rewrite Hc. simpl.
  rewrite load_iris_dataset_run. finish_load.
Qed.

Lemma load_dataset_not_found s line rest :
  stdin s = line :: rest -> strip line <> "" ->
  files s !! strip line = None ->
  load_dataset s
  = (Ok (PyFrame (iris_dataset (iris_table s))),
     logged (asked s rest)
            ([Queried (PathExists (strip line)); Printed (PStr (msg_not_found (strip line)))]
             ++ iris_events)).
Proof.
  intros H Hc Hf. apply truthy_true in Hc. start_load s H. rewrite Hc.
  unfold try_except, path_exists, mbind, M_bind, gets. simpl in *.
  rewrite Hf. simpl. rewrite load_iris_dataset_run. finish_load.
Qed.

Lemma load_dataset_read_error s line rest e :
  stdin s = line :: rest -> strip line <> "" ->
  files s !! strip line = Some (inl e) ->
  load_dataset s
  = (Ok (PyFrame (iris_dataset (iris_table s))),
     logged (asked s rest)
            ([Queried (PathExists (strip line)); Queried (ReadCsv (strip line));
              Printed (PStr (msg_error e))] ++ iris_events)).
Proof.
  intros H Hc Hf. apply truthy_true in Hc. start_load s H. rewrite Hc.
  unfold try_except, path_exists, read_csv, mbind, M_bind, gets, raise. simpl in *.
  repeat (rewrite Hf; simpl). rewrite load_iris_dataset_run. finish_load.
Qed.

Lemma load_dataset_csv s line rest df :
  stdin s = line :: rest -> strip line <> "" ->
  files s !! strip line = Some (inr df) ->
  load_dataset s
  = (Ok (PyFrame df),
     logged (asked s rest)
            [Queried (PathExists (strip line)); Queried (ReadCsv (strip line));
             Printed (PStr (msg_loaded (strip line)))]).
Proof.
  intros H Hc Hf. apply truthy_true in Hc. start_load s H. rewrite Hc.
  unfold try_except, path_exists, read_csv, mbind, M_bind, gets, raise. simpl in *.
  repeat (rewrite Hf; simpl). finish_load.
Qed.

Lemma emitted_app {A} (m : M A) s es :
  log (m s).2 = log s ++ es -> emitted m s = es.
Proof. intros H. unfold emitted. rewrite H. apply drop_app_length. Qed.

Lemma emitted_asked {A} (m : M A) s r rest es :
  m s = (r, logged (asked s rest) es) ->
  emitted m s = [Printed (PStr msg_ask); Prompted msg_prompt] ++ es.
Proof.
  intros H. apply emitted_app. rewrite H. simpl. now rewrite <- app_assoc.
Qed.






(** ** Cleaning *)

Lemma has_null_false r : has_null r = false <-> Forall is_Some r.
Proof.
  unfold has_null. induction r as [|c r IH]; simpl.
  - split; auto.
  - rewrite orb_false_iff, negb_false_iff, bool_decide_eq_true, IH.
    split; [intros [? ?]; now constructor | intros H; now inversion H].
Qed.

Lemma dropna_rows_filter rs :
  dropna_rows rs = filter (fun r => Forall is_Some r.2) rs.
Proof.
  induction rs as [|r rs IH]; [reflexivity|].
  cbn [dropna_rows]. rewrite IH.
  destruct (has_null r.2) eqn:E.
  - rewrite filter_cons_False; [reflexivity|].
    intros F. apply has_null_false in F. congruence.
  - rewrite filter_cons_True; [reflexivity|]. now apply has_null_false.
Qed.

Lemma explore_data_run df s :
  explore_data df s
  = (Ok (dropna df),
     logged s [Printed (PStr (nl +:+ "--- Data Overview ---"));
               Printed (PFrame (head df));
               Printed (PStr (nl +:+ "--- Data Types ---"));
               Printed (PDtypes (columns df));
               Printed (PStr (nl +:+ "--- Missing Values ---"));
               Printed (PCounts (null_counts df))]).
Proof.
  unfold explore_data, mbind, M_bind. rewrite !print_run, !logged_logged.
  reflexivity.
Qed.

(** C8 — the frame returned by [explore_data] has no missing entry: its rows
    are exactly the rows of the input without a missing entry, in the
    original order; the columns are unchanged. *)
Theorem explore_data_no_nulls df s :
  exists df' s',
    explore_data df s = (Ok df', s')
    /\ Forall (fun r => Forall is_Some r.2) (rows df')
    /\ rows df' = filter (fun r => Forall is_Some r.2) (rows df)
    /\ rows df' `sublist_of` rows df
    /\ columns df' = columns df.
Proof.
  eexists _, _. split; [apply explore_data_run|].
  simpl. rewrite dropna_rows_filter.
  split; [|split; [reflexivity|split; [apply sublist_filter|reflexivity]]].
  apply Forall_forall. intros r Hr. now apply list_elem_of_filter in Hr as [? _].
Qed.

(** ** Description *)

Lemma basic_analysis_grouped df s g cats n nums :
  select_dtypes is_categorical df = g :: cats ->
  select_dtypes is_number df = n :: nums ->
  basic_analysis df s = (Ok tt, logged s (describe_events df ++ grouping_events df g)).
Proof.
  intros Hc Hn. unfold basic_analysis, mbind, M_bind, lift.
  rewrite Hc, Hn. cbn [length Nat.ltb Nat.leb andb getindex lookup list_lookup].
  rewrite !print_run, !logged_logged. reflexivity.
Qed.

Lemma basic_analysis_plain df s :
  select_dtypes is_categorical df = [] \/ select_dtypes is_number df = [] ->
  basic_analysis df s = (Ok tt, logged s (describe_events df ++ no_grouping_events)).
Proof.
  intros H. unfold basic_analysis, mbind, M_bind, lift.
  replace ((0 <? length (select_dtypes is_categorical df))%nat
           && (0 <? length (select_dtypes is_number df))%nat) with false.
  - rewrite !print_run, !logged_logged. reflexivity.
  - symmetry. apply andb_false_iff.
    destruct H as [-> | ->]; [left | right]; reflexivity.
Qed.


(** ** Plotting *)

Lemma position_elem c ls : c ∈ ls -> is_Some (position c ls).
Proof.
  induction ls as [|l ls IH]; intros H.
  - now apply elem_of_nil in H.
  - simpl. destruct (String.eqb_spec l c) as [|Hne]; [eauto|].
    apply elem_of_cons in H as [->|H]; [congruence|].
    destruct (IH H) as [i ->]. simpl. eauto.
Qed.

Lemma select_dtypes_labels incl df c :
  c ∈ select_dtypes incl df -> c ∈ labels df.
Proof.
  unfold select_dtypes, labels. rewrite !list_elem_of_fmap.
  intros (p & -> & Hp). apply list_elem_of_filter in Hp as [_ Hp]. eauto.
Qed.

Lemma getitem_selected incl df c :
  c ∈ select_dtypes incl df -> exists y, getitem df c = Ok y.
Proof.
  intros H. apply select_dtypes_labels, position_elem in H as [i Hi].
  unfold getitem. rewrite Hi. eauto.
Qed.

Lemma visualize_data_few df s :
  (length (select_dtypes is_number df) < 2)%nat ->
  visualize_data df s = (Ok tt, logged s [Printed (PStr msg_few_columns)]).
Proof.
  intros H. unfold visualize_data.
  apply Nat.ltb_lt in H. rewrite H. apply print_run.
Qed.

Lemma visualize_data_charts df s c0 c1 more y0 y1 :
  select_dtypes is_number df = c0 :: c1 :: more ->
  getitem df c0 = Ok y0 ->
  getitem df c1 = Ok y1 ->
  visualize_data df s
  = (Ok tt,
     MkSys (stdin s) (files s) (iris_table s)
       (log s ++ (Shown <$>
          (reverse (figures s)
           ++ [line_chart df c0 y0]
           ++ match select_dtypes is_categorical df with
              | k :: _ => [bar_chart df k c0]
              | [] => []
              end
           ++ [histogram_chart c1 y1;
               scatter_chart df c0 c1 (select_dtypes is_categorical df !! 0%nat)])))
       []).
Proof.
  intros Hn H0 H1. destruct s as [inp fs tbl lg figs].
  unfold visualize_data. rewrite Hn.
  cbn [length Nat.ltb Nat.leb].
  unfold mbind, M_bind, lift, getindex.
  cbn [lookup list_lookup].
  unfold plt_figure, draw, plt_title, plt_xlabel, plt_ylabel, plt_legend,
    plt_tight_layout, plt_show, on_current, set_figures, mret, M_ret.
  cbn -[getitem select_dtypes String.append reverse]. rewrite H0.
  cbn -[getitem select_dtypes String.append reverse].
  destruct (select_dtypes is_categorical df) as [|k cats];
    cbn -[getitem select_dtypes String.append reverse]; rewrite H1;
    cbn -[getitem select_dtypes String.append reverse];
    rewrite reverse_cons, !fmap_app; cbn -[String.append reverse];
    rewrite <- ?app_assoc; reflexivity.
Qed.





(** ** The whole run *)

Lemma step_logged s es : step s (logged s es) es.
Proof. unfold step. split_and!; reflexivity. Qed.

Lemma step_trans s s1 s2 es1 es2 :
  step s s1 es1 -> step s1 s2 es2 -> step s s2 (es1 ++ es2).
Proof.
  intros (F1 & I1 & S1 & L1) (F2 & I2 & S2 & L2).
  unfold step. split_and!; try congruence.
  - now transitivity (stdin s1).
  - rewrite L2, L1. now rewrite app_assoc.
Qed.

Lemma step_emitted {A} (m : M A) s es :
  step s (m s).2 es -> emitted m s = es.
Proof. intros (_ & _ & _ & L). now apply emitted_app. Qed.

Lemma explore_data_step df s :
  exists s' es,
    explore_data df s = (Ok (dropna df), s')
    /\ step s s' es /\ Forall (fun e => is_output e = true) es.
Proof.
  eexists _, _. split; [apply explore_data_run|].
  split; [apply step_logged|]. repeat constructor.
Qed.

Lemma basic_analysis_step df s :
  exists s' es,
    basic_analysis df s = (Ok tt, s')
    /\ step s s' es /\ Forall (fun e => is_output e = true) es.
Proof.
  destruct (select_dtypes is_categorical df) as [|g cats] eqn:Hc;
    [|destruct (select_dtypes is_number df) as [|n nums] eqn:Hn].
  - eexists _, _. split; [apply basic_analysis_plain; now left|].
    split; [apply step_logged|]. repeat constructor.
  - eexists _, _. split; [apply basic_analysis_plain; now right|].
    split; [apply step_logged|]. repeat constructor.
  - eexists _, _. split; [apply (basic_analysis_grouped df s g cats n nums Hc Hn)|].
    split; [apply step_logged|]. repeat constructor.
Qed.

Lemma Forall_output_Shown fs : Forall (fun e => is_output e = true) (Shown <$> fs).
Proof. apply Forall_fmap. now apply Forall_true. Qed.

Lemma visualize_data_step df s :
  exists s' es,
    visualize_data df s = (Ok tt, s')
    /\ step s s' es /\ Forall (fun e => is_output e = true) es.
Proof.
  destruct (select_dtypes is_number df) as [|c0 [|c1 more]] eqn:Hn.
  - eexists _, _. split; [apply visualize_data_few; rewrite Hn; simpl; lia|].
    split; [apply step_logged|]. repeat constructor.
  - eexists _, _. split; [apply visualize_data_few; rewrite Hn; simpl; lia|].
    split; [apply step_logged|]. repeat constructor.
  - destruct (getitem_selected is_number df c0) as [y0 H0];
      [rewrite Hn; apply elem_of_cons; now left|].
    destruct (getitem_selected is_number df c1) as [y1 H1];
      [rewrite Hn; rewrite !elem_of_cons; auto|].
    eexists _, _. split; [apply (visualize_data_charts df s c0 c1 more y0 y1 Hn H0 H1)|].
    split; [unfold step; split_and!; reflexivity|apply Forall_output_Shown].
Qed.

(** What the acquisition logs after the prompt was answered: at most one
    existence test, one read and one load of the Iris table. *)
Lemma load_dataset_step s line rest :
  stdin s = line :: rest ->
  exists df es,
    load_dataset s = (Ok (PyFrame df), logged (asked s rest) es)
    /\ count is_prompt es = 0%nat
    /\ (count is_exists_query es <= 1)%nat
    /\ (count is_read_csv es <= 1)%nat
    /\ (count is_load_iris es <= 1)%nat.
Proof.
  intros H.
  destruct (decide (strip line = "")) as [Hc|Hc].
  - eexists _, _. split; [apply (load_dataset_default _ _ _ H Hc)|].
    vm_compute. lia.
  - destruct (files s !! strip line) as [[e|d]|] eqn:Hf.
    + eexists _, _. split; [apply (load_dataset_read_error _ _ _ _ H Hc Hf)|].
      cbv -[Nat.le String.append strip msg_error]. lia.
    + eexists _, _. split; [apply (load_dataset_csv _ _ _ _ H Hc Hf)|].
      cbv -[Nat.le String.append strip msg_error]. lia.
    + eexists _, _. split; [apply (load_dataset_not_found _ _ _ H Hc Hf)|].
      cbv -[Nat.le String.append strip msg_error]. lia.
Qed.

(** Every way a run of [main] can go, with the intermediate states. *)
Lemma main_cases s :
  let s0 := logged s [Printed (PStr msg_welcome)] in
  (stdin s = []
   /\ load_dataset s0
      = (Raise (Exn "EOFError" "EOF when reading a line"),
         logged s0 [Printed (PStr msg_ask); Prompted msg_prompt])
   /\ main s
      = (Raise (Exn "EOFError" "EOF when reading a line"),
         logged s0 [Printed (PStr msg_ask); Prompted msg_prompt]))
  \/ (exists line rest df es1,
        let s1 := logged (asked s0 rest) es1 in
        stdin s = line :: rest
        /\ load_dataset s0 = (Ok (PyFrame df), s1)
        /\ count is_prompt es1 = 0%nat
        /\ (count is_exists_query es1 <= 1)%nat
        /\ (count is_read_csv es1 <= 1)%nat
        /\ (count is_load_iris es1 <= 1)%nat
        /\ ((empty df = true
             /\ main s = (Ok tt, logged s1 [Printed (PStr msg_exit)]))
            \/ (empty df = false
                /\ exists s2 s3 s4 es2 es3 es4,
                    explore_data df s1 = (Ok (dropna df), s2)
                    /\ basic_analysis (dropna df) s2 = (Ok tt, s3)
                    /\ visualize_data (dropna df) s3 = (Ok tt, s4)
                    /\ main s = (Ok tt, logged s4 [Printed (PStr msg_complete)])
                    /\ step s1 s2 es2 /\ step s2 s3 es3 /\ step s3 s4 es4
                    /\ Forall (fun e => is_output e = true) (es2 ++ es3 ++ es4)))).
Proof.
  intros s0. unfold main.
  match goal with |- context [load_dataset ≫= ?k] => set (continue := k) end.
  change ((print (PStr ("Welcome to Ubuntu Data Explorer" +:+ nl))
             ≫= (fun _ => load_dataset ≫= continue)) s)
    with ((load_dataset ≫= continue) s0).
  destruct (stdin s) as [|line rest] eqn:Hin.
  - left. split; [reflexivity|].
    pose proof (load_dataset_eof s0 Hin) as R.
    split; [exact R|]. now apply bind_raise.
  - right.
    destruct (load_dataset_step s0 line rest Hin) as (df & es1 & R & P & Q1 & Q2 & Q3).
    exists line, rest, df, es1. cbv zeta.
    split; [reflexivity|]. split; [exact R|]. split_and!; try assumption.
    rewrite (bind_ok _ _ _ _ _ R). unfold continue.
    destruct (empty df) eqn:He.
    + left. split; [reflexivity|]. apply print_run.
    + right. split; [reflexivity|].
      destruct (explore_data_step df (logged (asked s0 rest) es1))
        as (s2 & es2 & R2 & S2 & F2).
      destruct (basic_analysis_step (dropna df) s2) as (s3 & es3 & R3 & S3 & F3).
      destruct (visualize_data_step (dropna df) s3) as (s4 & es4 & R4 & S4 & F4).
      exists s2, s3, s4, es2, es3, es4.
      split_and!; try assumption.
      * rewrite (bind_ok _ _ _ _ _ R2), (bind_ok _ _ _ _ _ R3), (bind_ok _ _ _ _ _ R4).
        apply print_run.
      * rewrite !Forall_app. auto.
Qed.

Lemma step_asked s rest line :
  stdin s = line :: rest ->
  step s (asked s rest) [Printed (PStr msg_ask); Prompted msg_prompt].
Proof.
  intros H. unfold step, asked. simpl. split_and!; try reflexivity.
  rewrite H. apply suffix_cons_r. reflexivity.
Qed.

(** The log of a whole run: the welcome, the question and the prompt, then
    the acquisition's events, then output only. *)
Lemma main_log s :
  exists es1 es2,
    step s (main s).2
         ([Printed (PStr msg_welcome); Printed (PStr msg_ask); Prompted msg_prompt]
          ++ es1 ++ es2)
    /\ count is_prompt es1 = 0%nat
    /\ (count is_exists_query es1 <= 1)%nat
    /\ (count is_read_csv es1 <= 1)%nat
    /\ (count is_load_iris es1 <= 1)%nat
    /\ Forall (fun e => is_output e = true) es2.
Proof.
  destruct (main_cases s) as
    [(Hin & _ & R) | (line & rest & df & es1 & Hin & _ & P & Q1 & Q2 & Q3 & C)].
  - exists [], []. rewrite R. cbn [snd]. split; [|repeat split; auto].
    rewrite logged_logged. apply step_logged.
  - pose proof (step_trans _ _ _ _ _
        (step_logged s [Printed (PStr msg_welcome)])
        (step_trans _ _ _ _ _
           (step_asked (logged s [Printed (PStr msg_welcome)]) rest line Hin)
           (step_logged _ es1))) as S1.
    destruct C as [(He & R) | (He & s2 & s3 & s4 & es2 & es3 & es4
                                & _ & _ & _ & R & S2 & S3 & S4 & F)].
    + exists es1, [Printed (PStr msg_exit)]. rewrite R. cbn [snd].
      split; [|split_and!; auto; repeat constructor].
      pose proof (step_trans _ _ _ _ _ S1 (step_logged _ [Printed (PStr msg_exit)])) as S.
      rewrite <- !app_assoc in S. exact S.
    + exists es1, ((es2 ++ es3 ++ es4) ++ [Printed (PStr msg_complete)]).
      rewrite R. cbn [snd].
      split; [|split_and!; auto; apply Forall_app; split; auto; repeat constructor].
      pose proof (step_trans _ _ _ _ _ S1
        (step_trans _ _ _ _ _ S2
          (step_trans _ _ _ _ _ S3
            (step_trans _ _ _ _ _ S4
              (step_logged _ [Printed (PStr msg_complete)]))))) as S.
      rewrite <- !app_assoc in S. rewrite <- !app_assoc. exact S.
Qed.

Lemma count_app p es es' : count p (es ++ es') = (count p es + count p es')%nat.
Proof.
  induction es as [|e es IH]; [reflexivity|].
  simpl. rewrite IH. lia.
Qed.

Lemma count_output p es :
  (forall e, is_output e = true -> p e = false) ->
  Forall (fun e => is_output e = true) es -> count p es = 0%nat.
Proof.
  intros Hp F. induction F as [|e es He _ IH]; [reflexivity|].
  simpl. now rewrite (Hp e He), IH.
Qed.



(** C7 — in every run the user is prompted exactly once, and the existence
    test, the CSV read and the Iris load each happen at most once. *)
Theorem main_prompts_once s :
  count is_prompt (emitted main s) = 1%nat
  /\ (count is_exists_query (emitted main s) <= 1)%nat
  /\ (count is_read_csv (emitted main s) <= 1)%nat
  /\ (count is_load_iris (emitted main s) <= 1)%nat.
Proof.
  destruct (main_log s) as (es1 & es2 & S & P & Q1 & Q2 & Q3 & F).
  rewrite (step_emitted _ _ _ S). rewrite !count_app.
  rewrite !(count_output _ es2) by (try exact F; now intros []).
  rewrite P. cbn. lia.
Qed.



(** * Further properties of the script *)

(** ** What is typed at the prompt *)












(** ** What the acquisition asks of the file system *)

Ltac no_member H :=
  repeat (apply elem_of_cons in H as [H|H]; [discriminate H|]);
  apply elem_of_nil in H; destruct H.

(** X3 — [pd.read_csv] is only ever called on the path that was typed, and
    only after [os.path.exists] was asked and said it exists: never on a
    missing path, never on an empty one. *)
Theorem load_dataset_reads_existing s p :
  Queried (ReadCsv p) ∈ emitted load_dataset s ->
  p <> ""
  /\ is_Some (files s !! p)
  /\ (exists line, stdin s !! 0%nat = Some line /\ p = strip line)
  /\ (Queried (PathExists p) ∈ emitted load_dataset s).
Proof.
  intros H. destruct (stdin s) as [|line rest] eqn:Hin.
  - rewrite (emitted_logged _ _ _ _ (load_dataset_eof s Hin)) in H. no_member H.
  - destruct (decide (strip line = "")) as [Hc|Hc].
    { rewrite (emitted_asked _ _ _ _ _ (load_dataset_default s line rest Hin Hc)) in H.
      no_member H. }
    destruct (files s !! strip line) as [[e|d]|] eqn:Hf.
    + rewrite (emitted_asked _ _ _ _ _ (load_dataset_read_error s line rest e Hin Hc Hf)) in *.
      simpl in H. do 3 (apply elem_of_cons in H as [H|H]; [discriminate H|]).
      apply elem_of_cons in H as [H|H]; [|no_member H].
      injection H as ->. split_and!; eauto.
      simpl. rewrite !elem_of_cons. auto.
    + rewrite (emitted_asked _ _ _ _ _ (load_dataset_csv s line rest d Hin Hc Hf)) in *.
      simpl in H. do 3 (apply elem_of_cons in H as [H|H]; [discriminate H|]).
      apply elem_of_cons in H as [H|H]; [|no_member H].
      injection H as ->. split_and!; eauto.
      simpl. rewrite !elem_of_cons. auto.
    + rewrite (emitted_asked _ _ _ _ _ (load_dataset_not_found s line rest Hin Hc Hf)) in H.
      no_member H.
Qed.

Lemma load_dataset_reads_existing_witness :
  "data.csv" <> ""
  /\ is_Some (files (demo_sys ["data.csv"]) !! "data.csv")
  /\ (exists line, stdin (demo_sys ["data.csv"]) !! 0%nat = Some line
                   /\ "data.csv" = strip line)
  /\ (Queried (PathExists "data.csv") ∈ emitted load_dataset (demo_sys ["data.csv"])).
Proof.
  apply (load_dataset_reads_existing (demo_sys ["data.csv"]) "data.csv").
  vm_compute. repeat constructor.
Defined.

(** ** Standard input *)

(** X4 — at end of input the prompt raises [EOFError]; [input] is outside the
    [try], so [load_dataset] and [main] propagate it, having printed only the
    welcome, the question and the prompt. *)
Theorem main_eof s :
  stdin s = [] ->
  main s
  = (Raise (Exn "EOFError" "EOF when reading a line"),
     logged s [Printed (PStr msg_welcome); Printed (PStr msg_ask); Prompted msg_prompt]).
Proof.
  intros Hin. destruct (main_cases s) as [(_ & _ & R) | (line & rest & ? & ? & Hin' & _)].
  - rewrite R. now rewrite logged_logged.
  - congruence.
Qed.

Lemma main_eof_witness :
  main (demo_sys [])
  = (Raise (Exn "EOFError" "EOF when reading a line"),
     logged (demo_sys [])
            [Printed (PStr msg_welcome); Printed (PStr msg_ask); Prompted msg_prompt]).
Proof. apply (main_eof (demo_sys [])). reflexivity. Defined.

Lemma basic_analysis_logged df s :
  exists es, basic_analysis df s = (Ok tt, logged s es).
Proof.
  destruct (select_dtypes is_categorical df) as [|g cats] eqn:Hc;
    [|destruct (select_dtypes is_number df) as [|n nums] eqn:Hn].
  - eexists. apply basic_analysis_plain. now left.
  - eexists. apply basic_analysis_plain. now right.
  - eexists. apply (basic_analysis_grouped df s g cats n nums Hc Hn).
Qed.

Lemma visualize_data_state df s :
  exists es figs,
    visualize_data df s
    = (Ok tt, MkSys (stdin s) (files s) (iris_table s) (log s ++ es) figs)
    /\ ((length (select_dtypes is_number df) < 2)%nat ->
        figs = figures s /\ shown es = [])
    /\ ((2 <= length (select_dtypes is_number df))%nat -> figs = []).
Proof.
  destruct (select_dtypes is_number df) as [|c0 [|c1 more]] eqn:Hn.
  - eexists _, _. split; [apply visualize_data_few; rewrite Hn; simpl; lia|].
    simpl. split; [auto | lia].
  - eexists _, _. split; [apply visualize_data_few; rewrite Hn; simpl; lia|].
    simpl. split; [auto | lia].
  - destruct (getitem_selected is_number df c0) as [y0 H0];
      [rewrite Hn; apply elem_of_cons; now left|].
    destruct (getitem_selected is_number df c1) as [y1 H1];
      [rewrite Hn; rewrite !elem_of_cons; auto|].
    eexists _, _. split; [apply (visualize_data_charts df s c0 c1 more y0 y1 Hn H0 H1)|].
    simpl. split; [lia | auto].
Qed.

(** X5 — [main] reads exactly one line: whatever else is waiting on standard
    input is left unread, on every path through the script. *)
Theorem main_consumes_one_line s line rest :
  stdin s = line :: rest -> stdin (main s).2 = rest.
Proof.
  intros Hin.
  destruct (main_cases s) as
    [(Hnil & _) | (line' & rest' & df & es1 & Hin' & _ & _ & _ & _ & _ & C)];
    [congruence|].
  assert (rest' = rest) as -> by congruence.
  destruct C as [(_ & R) | (_ & s2 & s3 & s4 & es2 & es3 & es4
                              & R2 & R3 & R4 & R & _)].
  - now rewrite R.
  - rewrite R. cbn [snd logged stdin].
    destruct (visualize_data_state (dropna df) s3) as (es & figs & V & _).
    rewrite V in R4. injection R4 as <-. cbn [stdin].
    destruct (basic_analysis_logged (dropna df) s2) as (es' & B).
    rewrite B in R3. injection R3 as <-. cbn [logged stdin].
    rewrite explore_data_run in R2. injection R2 as <-. reflexivity.
Qed.

Lemma main_consumes_one_line_witness :
  stdin (main (demo_sys ["mixed.csv"; "more"; "lines"])).2 = ["more"; "lines"].
Proof.
  apply (main_consumes_one_line (demo_sys ["mixed.csv"; "more"; "lines"]) "mixed.csv").
  reflexivity.
Defined.

(** ** Plotting and describing never fail *)


(** X7 — with categorical columns but no numeric column, [basic_analysis]
    takes the branch that reports "No categorical column found": the message
    also covers the case where it is the numeric columns that are missing. *)
Theorem basic_analysis_no_numeric df s :
  select_dtypes is_categorical df <> [] ->
  select_dtypes is_number df = [] ->
  emitted (basic_analysis df) s
  = [Printed (PStr (nl +:+ "--- Summary Statistics ---"));
     Printed (PDescribe df);
     Printed (PStr (nl +:+ "(No categorical column found for grouping analysis.)"))].
Proof.
  intros _ Hn.
  now rewrite (emitted_logged _ _ _ _ (basic_analysis_plain df s (or_intror Hn))).
Qed.

Lemma basic_analysis_no_numeric_witness :
  emitted (basic_analysis (Frame [("kind", object_)] [(0, [Some (VStr "x")])]))
          (demo_sys [])
  = [Printed (PStr (nl +:+ "--- Summary Statistics ---"));
     Printed (PDescribe (Frame [("kind", object_)] [(0, [Some (VStr "x")])]));
     Printed (PStr (nl +:+ "(No categorical column found for grouping analysis.)"))].
Proof.
  apply (basic_analysis_no_numeric
           (Frame [("kind", object_)] [(0, [Some (VStr "x")])]) (demo_sys [])).
  - discriminate.
  - reflexivity.
Defined.


(** ** Cleaning *)

Lemma dropna_rows_id rs :
  Forall (fun r => Forall is_Some r.2) rs -> dropna_rows rs = rs.
Proof.
  induction 1 as [|r rs Hr _ IH]; [reflexivity|].
  cbn [dropna_rows]. apply has_null_false in Hr. now rewrite Hr, IH.
Qed.

Lemma dropna_rows_length rs : (length (dropna_rows rs) <= length rs)%nat.
Proof.
  induction rs as [|r rs IH]; [reflexivity|].
  cbn [dropna_rows]. destruct (has_null r.2); simpl; lia.
Qed.

Lemma dropna_rows_fixed rs :
  dropna_rows rs = rs -> Forall (fun r => Forall is_Some r.2) rs.
Proof.
  induction rs as [|r rs IH]; [constructor|].
  cbn [dropna_rows]. destruct (has_null r.2) eqn:E.
  - intros H. pose proof (dropna_rows_length rs) as L.
    rewrite H in L. simpl in L. lia.
  - intros H. injection H as H. constructor; [now apply has_null_false | auto].
Qed.

Lemma dropna_id df :
  Forall (fun r => Forall is_Some r.2) (rows df) -> dropna df = df.
Proof.
  intros H. destruct df as [cols rs]. unfold dropna. simpl in *.
  now rewrite dropna_rows_id.
Qed.

(** X9 — a frame without missing entries comes back from [explore_data]
    unchanged: same columns, same rows, same index labels. *)
Theorem explore_data_clean_unchanged df s :
  Forall (fun r => Forall is_Some r.2) (rows df) ->
  (explore_data df s).1 = Ok df.
Proof.
  intros H. rewrite explore_data_run. simpl. now rewrite dropna_id.
Qed.

Lemma explore_data_clean_unchanged_witness :
  (explore_data demo_mixed (demo_sys [])).1 = Ok demo_mixed.
Proof.
  apply (explore_data_clean_unchanged demo_mixed (demo_sys [])).
  repeat constructor; eauto.
Defined.

(** X10 — cleaning keeps the index labels of the rows that survive; it does
    not renumber them, and it never adds a row. *)
Theorem explore_data_keeps_index df s :
  exists df' s',
    explore_data df s = (Ok df', s')
    /\ index df' `sublist_of` index df
    /\ (length (rows df') <= length (rows df))%nat
    /\ (forall i r, rows df' !! i = Some r -> r ∈ rows df).
Proof.
  eexists _, _. split; [apply explore_data_run|].
  unfold index. simpl. rewrite dropna_rows_filter.
  split; [apply fmap_sublist, sublist_filter|].
  split; [apply length_filter|].
  intros i r H. apply list_elem_of_lookup_2 in H.
  now apply list_elem_of_filter in H as [_ H].
Qed.

(** ** Whole runs past the emptiness test *)

(** What [basic_analysis] logs does not depend on the state it starts in. *)
Lemma basic_analysis_events df :
  exists es, forall s,
    basic_analysis df s = (Ok tt, logged s (describe_events df ++ es)).
Proof.
  destruct (select_dtypes is_categorical df) as [|g cats] eqn:Hc;
    [|destruct (select_dtypes is_number df) as [|n nums] eqn:Hn].
  - eexists. intros s. apply basic_analysis_plain. now left.
  - eexists. intros s. apply basic_analysis_plain. now right.
  - eexists. intros s. apply (basic_analysis_grouped df s g cats n nums Hc Hn).
Qed.

(** Nor does what [visualize_data] logs, once the open figures are fixed. *)
Lemma visualize_data_events df figs0 :
  exists es figs, forall s,
    figures s = figs0 ->
    visualize_data df s
    = (Ok tt, MkSys (stdin s) (files s) (iris_table s) (log s ++ es) figs).
Proof.
  destruct (select_dtypes is_number df) as [|c0 [|c1 more]] eqn:Hn.
  - exists [Printed (PStr msg_few_columns)], figs0. intros s <-.
    apply visualize_data_few. rewrite Hn. simpl. lia.
  - exists [Printed (PStr msg_few_columns)], figs0. intros s <-.
    apply visualize_data_few. rewrite Hn. simpl. lia.
  - destruct (getitem_selected is_number df c0) as [y0 H0];
      [rewrite Hn; apply elem_of_cons; now left|].
    destruct (getitem_selected is_number df c1) as [y1 H1];
      [rewrite Hn; rewrite !elem_of_cons; auto|].
    eexists _, _. intros s Hs.
    rewrite (visualize_data_charts df s c0 c1 more y0 y1 Hn H0 H1), Hs.
    reflexivity.
Qed.

(** A run that gets past the emptiness test, stage by stage. *)
Lemma main_full_run s df s1 es3 es4 figs :
  load_dataset (logged s [Printed (PStr msg_welcome)]) = (Ok (PyFrame df), s1) ->
  empty df = false ->
  (forall t, basic_analysis (dropna df) t = (Ok tt, logged t es3)) ->
  (forall t, figures t = figures s1 ->
     visualize_data (dropna df) t
     = (Ok tt, MkSys (stdin t) (files t) (iris_table t) (log t ++ es4) figs)) ->
  main s
  = (Ok tt,
     MkSys (stdin s1) (files s1) (iris_table s1)
           (log s1 ++ explore_events df ++ es3 ++ es4 ++ [Printed (PStr msg_complete)])
           figs).
Proof.
  intros L He B V. unfold main.
  match goal with |- context [load_dataset ≫= ?k] => set (continue := k) end.
  change ((print (PStr ("Welcome to Ubuntu Data Explorer" +:+ nl))
             ≫= (fun _ => load_dataset ≫= continue)) s)
    with ((load_dataset ≫= continue) (logged s [Printed (PStr msg_welcome)])).
  rewrite (bind_ok _ _ _ _ _ L). unfold continue. rewrite He.
  rewrite (bind_ok _ _ _ _ _ (explore_data_run df s1)).
  rewrite (bind_ok _ _ _ _ _ (B _)).
  match goal with
  | |- context [(visualize_data _ ≫= _) ?t] =>
      rewrite (bind_ok _ _ _ _ _ (V t eq_refl))
  end.
  rewrite print_run. unfold logged, explore_events. cbn [stdin files iris_table log figures].
  now rewrite <- !app_assoc.
Qed.

Lemma dropna_rows_all_gappy rs :
  Forall (fun r => has_null r.2 = true) rs -> dropna_rows rs = [].
Proof.
  induction 1 as [|r rs Hr _ IH]; [reflexivity|].
  cbn [dropna_rows]. now rewrite Hr.
Qed.

(** X11 — [main] tests for an empty frame before cleaning, not after: a CSV
    whose every row has a gap passes the test, is cleaned to a frame without
    rows, and that empty frame is what is handed on to be described. *)
Theorem main_guard_before_cleaning s line rest df :
  stdin s = line :: rest ->
  strip line <> "" ->
  files s !! strip line = Some (inr df) ->
  empty df = false ->
  Forall (fun r => has_null r.2 = true) (rows df) ->
  dropna df = Frame (columns df) []
  /\ empty (dropna df) = true
  /\ Printed (PDescribe (Frame (columns df) [])) ∈ emitted main s.
Proof.
  intros Hin Hc Hf He Hg.
  assert (D : dropna df = Frame (columns df) []).
  { unfold dropna. now rewrite dropna_rows_all_gappy. }
  pose proof (load_dataset_csv (logged s [Printed (PStr msg_welcome)])
                line rest df Hin Hc Hf) as L.
  destruct (basic_analysis_events (dropna df)) as [es3 B].
  destruct (visualize_data_events (dropna df) (figures s)) as (es4 & figs & V).
  pose proof (main_full_run s df _ _ es4 figs L He B V) as R.
  split; [exact D|].
  split; [rewrite D; simpl; now destruct (columns df)|].
  assert (E : emitted main s
              = [Printed (PStr msg_welcome); Printed (PStr msg_ask); Prompted msg_prompt;
                 Queried (PathExists (strip line)); Queried (ReadCsv (strip line));
                 Printed (PStr (msg_loaded (strip line)))]
                ++ explore_events df
                ++ (describe_events (dropna df) ++ es3)
                ++ es4 ++ [Printed (PStr msg_complete)]).
  { apply emitted_app. rewrite R. cbn [snd log logged asked].
    now rewrite <- !app_assoc. }
  rewrite E, <- D.
  rewrite !elem_of_app. right. right. left. left.
  unfold describe_events. rewrite !elem_of_cons. auto.
Qed.

Lemma main_guard_before_cleaning_witness :
  dropna demo_gappy = Frame (columns demo_gappy) []
  /\ empty (dropna demo_gappy) = true
  /\ Printed (PDescribe (Frame (columns demo_gappy) [])) ∈ emitted main gappy_sys.
Proof.
  apply (main_guard_before_cleaning gappy_sys "gaps.csv" [] demo_gappy).
  - reflexivity.
  - intros E. vm_compute in E. discriminate E.
  - reflexivity.
  - reflexivity.
  - repeat constructor.
Defined.

(** ** The default path: the Iris table *)

Lemma iris_dataset_no_nulls t :
  Forall (fun r => Forall is_Some r.2) (rows (iris_dataset t)).
Proof.
  apply Forall_lookup. intros i r. simpl. rewrite list_lookup_imap.
  destruct (t !! i) as [x|]; simpl; [|discriminate].
  intros [= <-]. simpl. repeat constructor; eauto.
Qed.

Lemma iris_dataset_index t : index (iris_dataset t) = Z.of_nat <$> seq 0 (length t).
Proof.
  unfold index. simpl. rewrite fmap_imap.
  rewrite <- (imap_seq_0 t Z.of_nat). now apply imap_ext.
Qed.

Lemma iris_dataset_sepal_length t :
  getitem (iris_dataset t) "sepal length (cm)"
  = Ok ((fun x => Some (VNum (sepal_length x))) <$> t).
Proof.
  unfold getitem. simpl. f_equal.
  rewrite fmap_imap. rewrite <- imap_const. now apply imap_ext.
Qed.

Lemma iris_dataset_sepal_width t :
  getitem (iris_dataset t) "sepal width (cm)"
  = Ok ((fun x => Some (VNum (sepal_width x))) <$> t).
Proof.
  unfold getitem. simpl. f_equal.
  rewrite fmap_imap. rewrite <- imap_const. now apply imap_ext.
Qed.

(** X12 — the frame built by [load_iris_dataset] has one row per sample,
    indexed from 0, and no missing entry, so [explore_data] hands it on
    unchanged. *)
Theorem explore_data_keeps_iris s :
  exists df s1 s2,
    load_iris_dataset s = (Ok df, s1)
    /\ length (rows df) = length (iris_table s)
    /\ index df = Z.of_nat <$> seq 0 (length (iris_table s))
    /\ explore_data df s1 = (Ok df, s2).
Proof.
  eexists _, _, _. split; [apply load_iris_dataset_run|].
  split; [simpl; apply length_imap|].
  split; [apply iris_dataset_index|].
  rewrite explore_data_run. rewrite dropna_id by apply iris_dataset_no_nulls.
  reflexivity.
Qed.

(** X13 — a run on the default path (blank line, a non-empty Iris table, no
    figure open): the group means are taken by [species], and exactly four
    figures are displayed: sepal length as a line, mean sepal length per
    species as bars, the histogram of sepal width, and sepal length against
    sepal width coloured by species. *)
Theorem main_default_run s line rest :
  stdin s = line :: rest ->
  strip line = "" ->
  iris_table s <> [] ->
  figures s = [] ->
  let iris := iris_dataset (iris_table s) in
  (exists s', main s = (Ok tt, s'))
  /\ Printed (PGroupMean iris "species" true) ∈ emitted main s
  /\ shown (emitted main s)
     = [line_chart iris "sepal length (cm)"
          ((fun x => Some (VNum (sepal_length x))) <$> iris_table s);
        bar_chart iris "species" "sepal length (cm)";
        histogram_chart "sepal width (cm)"
          ((fun x => Some (VNum (sepal_width x))) <$> iris_table s);
        scatter_chart iris "sepal length (cm)" "sepal width (cm)" (Some "species")].
Proof.
  intros Hin Hc Ht Hf iris.
  pose proof (load_dataset_default (logged s [Printed (PStr msg_welcome)])
                line rest Hin Hc) as L.
  cbn [logged iris_table] in L. fold iris in L.
  assert (He : empty iris = false).
  { unfold iris. destruct (iris_table s); [congruence | reflexivity]. }
  assert (D : dropna iris = iris) by apply dropna_id, iris_dataset_no_nulls.
  assert (B : forall t, basic_analysis (dropna iris) t
              = (Ok tt, logged t (describe_events iris ++ grouping_events iris "species"))).
  { intros t. rewrite D.
    now apply (basic_analysis_grouped iris t "species" [] "sepal length (cm)"
                 ["sepal width (cm)"; "petal length (cm)"; "petal width (cm)"]). }
  pose proof (fun t => visualize_data_charts iris t
                "sepal length (cm)" "sepal width (cm)"
                ["petal length (cm)"; "petal width (cm)"] _ _
                eq_refl (iris_dataset_sepal_length _) (iris_dataset_sepal_width _)) as V.
  assert (V' : forall t, figures t = [] ->
             visualize_data (dropna iris) t
             = (Ok tt, MkSys (stdin t) (files t) (iris_table t)
                  (log t ++ (Shown <$>
                     [line_chart iris "sepal length (cm)"
                        ((fun x => Some (VNum (sepal_length x))) <$> iris_table s);
                      bar_chart iris "species" "sepal length (cm)";
                      histogram_chart "sepal width (cm)"
                        ((fun x => Some (VNum (sepal_width x))) <$> iris_table s);
                      scatter_chart iris "sepal length (cm)" "sepal width (cm)"
                        (Some "species")]))
                  [])).
  { intros t Hfig. rewrite D, V, Hfig. reflexivity. }
  pose proof (main_full_run s iris _ _ _ _ L He B
                (fun t (H : figures t = figures s) => V' t (eq_trans H Hf))) as R.
  split; [eauto|].
  assert (E : emitted main s
              = [Printed (PStr msg_welcome); Printed (PStr msg_ask); Prompted msg_prompt]
                ++ iris_events ++ explore_events iris
                ++ (describe_events iris ++ grouping_events iris "species")
                ++ (Shown <$>
                     [line_chart iris "sepal length (cm)"
                        ((fun x => Some (VNum (sepal_length x))) <$> iris_table s);
                      bar_chart iris "species" "sepal length (cm)";
                      histogram_chart "sepal width (cm)"
                        ((fun x => Some (VNum (sepal_width x))) <$> iris_table s);
                      scatter_chart iris "sepal length (cm)" "sepal width (cm)"
                        (Some "species")])
                ++ [Printed (PStr msg_complete)]).
  { apply emitted_app. rewrite R. cbn [snd log logged asked].
    now rewrite <- !app_assoc. }
  rewrite E. split; [|reflexivity].
  rewrite !elem_of_app. do 3 right. left. right.
  unfold grouping_events. rewrite !elem_of_cons. auto.
Qed.

Lemma main_default_run_witness :
  let iris := iris_dataset (iris_table (demo_sys [""])) in
  (exists s', main (demo_sys [""]) = (Ok tt, s'))
  /\ Printed (PGroupMean iris "species" true) ∈ emitted main (demo_sys [""])
  /\ shown (emitted main (demo_sys [""]))
     = [line_chart iris "sepal length (cm)"
          ((fun x => Some (VNum (sepal_length x))) <$> iris_table (demo_sys [""]));
        bar_chart iris "species" "sepal length (cm)";
        histogram_chart "sepal width (cm)"
          ((fun x => Some (VNum (sepal_width x))) <$> iris_table (demo_sys [""]));
        scatter_chart iris "sepal length (cm)" "sepal width (cm)" (Some "species")].
Proof.
  apply (main_default_run (demo_sys [""]) "" []).
  - reflexivity.
  - reflexivity.
  - discriminate.
  - reflexivity.
Defined.

(** ** The missing-value report *)

Lemma filter_length_zero {A} (P : A -> Prop) `{!forall x, Decision (P x)} (l : list A) :
  length (filter P l) = 0%nat <-> Forall (fun x => ~ P x) l.
Proof.
  induction l as [|x l IH].
  - split; [constructor | reflexivity].
  - destruct (decide (P x)) as [Hx|Hx].
    + rewrite filter_cons_True by assumption. simpl. split; [discriminate|].
      intros F. inversion F; contradiction.
    + rewrite filter_cons_False by assumption. rewrite IH.
      split; [now constructor | intros F; now inversion F].
Qed.

Lemma at_pos_all (r : list cell) :
  (forall i, (i < length r)%nat -> at_pos i r <> None) <-> Forall is_Some r.
Proof.
  rewrite Forall_lookup. unfold at_pos. split.
  - intros H i x Hx. specialize (H i (lookup_lt_Some _ _ _ Hx)).
    rewrite Hx in H. simpl in H. destruct x; [eauto | congruence].
  - intros H i Hi. destruct (lookup_lt_is_Some_2 r i Hi) as [x Hx].
    rewrite Hx. simpl. destruct (H i x Hx) as [v ->]. discriminate.
Qed.

Lemma null_counts_zero df :
  Forall (fun p => p.2 = 0%nat) (null_counts df)
  <-> (forall i, (i < length (columns df))%nat ->
                 Forall (fun r => at_pos i r.2 <> None) (rows df)).
Proof.
  unfold null_counts. rewrite Forall_lookup. split.
  - intros H i Hi.
    assert (Hl : (i < length (labels df))%nat) by (unfold labels; now rewrite length_fmap).
    destruct (lookup_lt_is_Some_2 _ i Hl) as [c Hc].
    specialize (H i (c, length (filter (fun r => at_pos i r.2 = None) (rows df)))).
    rewrite list_lookup_imap, Hc in H. specialize (H eq_refl). simpl in H.
    now apply filter_length_zero in H.
  - intros H i p. rewrite list_lookup_imap.
    destruct (labels df !! i) as [c|] eqn:Hc; simpl; [|discriminate].
    intros [= <-]. simpl. apply filter_length_zero. apply H.
    apply lookup_lt_Some in Hc. unfold labels in Hc. now rewrite length_fmap in Hc.
Qed.

(** X14 — on a rectangular frame the report printed by [explore_data] and
    the cleaning agree: every column is reported with 0 missing entries
    exactly when no row is dropped. *)
Theorem explore_data_report_matches df s :
  rectangular df ->
  (Forall (fun p => p.2 = 0%nat) (null_counts df)
   <-> (explore_data df s).1 = Ok df)
  /\ Printed (PCounts (null_counts df)) ∈ emitted (explore_data df) s.
Proof.
  intros Hrect. split.
  - rewrite explore_data_run. cbn [fst]. rewrite null_counts_zero.
    assert (Hclean : (forall i, (i < length (columns df))%nat ->
                        Forall (fun r => at_pos i r.2 <> None) (rows df))
                     <-> Forall (fun r => Forall is_Some r.2) (rows df)).
    { unfold rectangular in Hrect. rewrite Forall_forall in Hrect.
      split.
      - intros H. apply Forall_forall. intros r Hr. apply at_pos_all.
        intros i Hi. rewrite (Hrect r Hr) in Hi.
        specialize (H i Hi). rewrite Forall_forall in H. now apply H.
      - intros H i Hi. apply Forall_forall. intros r Hr.
        rewrite Forall_forall in H. apply (proj2 (at_pos_all r.2) (H r Hr)).
        now rewrite (Hrect r Hr). }
    rewrite Hclean. split.
    + intros H. now rewrite dropna_id.
    + intros [= H]. apply dropna_rows_fixed.
      destruct df as [cols rs]. unfold dropna in H. simpl in *. congruence.
  - rewrite (emitted_logged _ _ _ _ (explore_data_run df s)).
    rewrite !elem_of_cons. auto 10.
Qed.

Lemma explore_data_report_matches_witness :
  (Forall (fun p => p.2 = 0%nat) (null_counts demo_numeric)
   <-> (explore_data demo_numeric (demo_sys [])).1 = Ok demo_numeric)
  /\ Printed (PCounts (null_counts demo_numeric))
       ∈ emitted (explore_data demo_numeric) (demo_sys []).
Proof.
  apply (explore_data_report_matches demo_numeric (demo_sys [])).
  repeat constructor.
Defined.
